(** * Encoder and output projections of the neuralmonkey decoders

    A shallow embedding of
      - [neuralmonkey/decoders/encoder_projection.py]
      - [neuralmonkey/decoders/output_projection.py]

    The Python functions build nodes of a TensorFlow computation graph, so a
    tensor is modelled as a symbolic graph node that carries its static
    shape (what [get_shape()] returns).  Exceptions and the diagnostic log
    are explicit: a computation yields either an exception or a value,
    together with the lines it logged.

    Trainable variables and their store (and hence the naming scopes) are
    not modelled: a dense layer is a node that records its unit count and
    its name.  [check_argument_types()] checks at run time what the types
    of the definitions below state, so it leaves no trace here. *)

From Stdlib Require Import String DecimalString Floats ZArith Lia Bool List.
Import ListNotations.
Local Open Scope string_scope.
Local Open Scope list_scope.
Local Open Scope Z_scope.

(** ** Exceptions, log and the computation monad *)

(** The exceptions the two modules raise themselves carry the text the
    source gives them.  [TensorFlowError] stands for an exception raised
    inside a TensorFlow call: its class (mostly [ValueError]) and its text
    are TensorFlow's and are not modelled. *)
Inductive Exn : Type :=
| ValueError (msg : string)
| AssertionError
| IndexError (msg : string)
| TypeError (msg : string)
| TensorFlowError.

(** A computation: its outcome and the lines written with [log]. *)
Definition M (A : Type) : Type := ((Exn + A) * list string)%type.

Definition ret {A} (a : A) : M A := (inr a, []).
Definition raise {A} (e : Exn) : M A := (inl e, []).
Definition log (message : string) : M unit := (inr tt, [message]).

Definition bind {A B} (m : M A) (k : A -> M B) : M B :=
  match m with
  | (inl e, l) => (inl e, l)
  | (inr a, l) => let (r, l') := k a in (r, l ++ l')
  end.

Notation "x <- m ;; k" := (bind m (fun x => k))
  (at level 61, m at next level, right associativity).
Notation "m ;;; k" := (bind m (fun _ => k))
  (at level 61, right associativity).

Definition outcome {A} (m : M A) : Exn + A := fst m.
Definition logged {A} (m : M A) : list string := snd m.

Definition raises {A} (m : M A) : Prop := exists e, outcome m = inl e.
Definition returns {A} (m : M A) (a : A) : Prop := outcome m = inr a.

(** ** Static shapes *)

(** A dimension is known ([Some n]) or unknown ([None], Python's
    [Dimension(None)], whose [.value] is [None]). *)
Definition Dim : Type := option Z.
Definition TensorShape : Type := list Dim.

(** A tensor has no negative dimension, and fewer than 2^63 elements. *)
Definition max_elements : Z := 2 ^ 63.
Definition num_elements (dims : list Z) : Z := fold_right Z.mul 1 dims.
Definition valid_shape (dims : list Z) : bool :=
  forallb (fun d => 0 <=? d) dims && (num_elements dims <? max_elements).

(** Two dimensions that must agree: the known one wins; two known ones must
    be equal. *)
Definition merge_dim (a b : Dim) : option Dim :=
  match a, b with
  | None, _ => Some b
  | Some _, None => Some a
  | Some x, Some y => if x =? y then Some a else None
  end.

(** Sizes along the concatenation axis add up; an unknown size makes the sum
    unknown. *)
Definition add_dim (a b : Dim) : Dim :=
  match a, b with
  | Some x, Some y => Some (x + y)
  | _, _ => None
  end.

Fixpoint merge_shapes (s1 s2 : TensorShape) : option TensorShape :=
  match s1, s2 with
  | [], [] => Some []
  | d1 :: r1, d2 :: r2 =>
      match merge_dim d1 d2, merge_shapes r1 r2 with
      | Some d, Some r => Some (d :: r)
      | _, _ => None
      end
  | _, _ => None
  end.

(** Shape of the concatenation of two tensors along [axis]. *)
Fixpoint concat_shape2 (axis : nat) (s1 s2 : TensorShape)
  : option TensorShape :=
  match s1, s2 with
  | d1 :: r1, d2 :: r2 =>
      match axis with
      | O => option_map (cons (add_dim d1 d2)) (merge_shapes r1 r2)
      | S k =>
          match merge_dim d1 d2, concat_shape2 k r1 r2 with
          | Some d, Some r => Some (d :: r)
          | _, _ => None
          end
      end
  | _, _ => None
  end.

Fixpoint concat_shape_from (axis : nat) (acc : TensorShape)
         (rest : list TensorShape) : option TensorShape :=
  match rest with
  | [] => Some acc
  | s :: rest' =>
      match concat_shape2 axis acc s with
      | Some acc' => concat_shape_from axis acc' rest'
      | None => None
      end
  end.

(** Shape inference of [tf.concat].  A single tensor is handed back as it
    is, nothing being checked.  Otherwise all the shapes have the same
    rank, the axis (counted from the end when negative) lies within it, and
    the dimensions off the axis agree. *)
Definition concat_shape (shapes : list TensorShape) (axis : Z)
  : option TensorShape :=
  match shapes with
  | [] => None
  | [s] => Some s
  | s :: rest =>
      let rank := Z.of_nat (length s) in
      let a := if axis <? 0 then axis + rank else axis in
      if (0 <=? a) && (a <? rank)
      then concat_shape_from (Z.to_nat a) s rest
      else None
  end.

(** ** Tensors: nodes of the computation graph *)

Inductive Tensor : Type :=
| mkTensor (op : Op) (shape : TensorShape)
with Op : Type :=
| OpPlaceholder (name : string)
| OpZeros
| OpConcat (values : list Tensor) (axis : Z)
| OpDense (inputs : Tensor) (units : Z) (name : option string)
| OpRelu (features : Tensor)
| OpTanh (x : Tensor)
| OpDropout (x : Tensor) (keep_prob : float) (train_mode : Tensor)
| OpMaxout (inputs : Tensor) (size : Z).

Definition tensor_op (t : Tensor) : Op := let (o, _) := t in o.
Definition get_shape (t : Tensor) : TensorShape := let (_, s) := t in s.
Definition rank (t : Tensor) : nat := length (get_shape t).

(** [shape[i]] on a shape of known rank: Python list indexing. *)
Definition shape_getitem (s : TensorShape) (i : Z) : M Dim :=
  let n := Z.of_nat (length s) in
  let j := if i <? 0 then i + n else i in
  if (0 <=? j) && (j <? n)
  then ret (nth (Z.to_nat j) s None)
  else raise (IndexError "list index out of range").

(** [l[i]] on a Python list. *)
Definition list_getitem {A} (l : list A) (i : Z) : M A :=
  let n := Z.of_nat (length l) in
  let j := if i <? 0 then i + n else i in
  if (0 <=? j) && (j <? n)
  then match nth_error l (Z.to_nat j) with
       | Some a => ret a
       | None => raise (IndexError "list index out of range")
       end
  else raise (IndexError "list index out of range").

(** The elements of a constant tensor, where the graph fixes them. *)
Definition constant_value (t : Tensor) : option (list float) :=
  match t with
  | mkTensor OpZeros [Some n] => Some (repeat 0%float (Z.to_nat n))
  | _ => None
  end.

(** ** The TensorFlow operations the two modules call *)

(** [tf.zeros(shape)]: fails on a negative dimension and on more elements
    than a tensor can have. *)
Definition tf_zeros (shape : list Z) : M Tensor :=
  if valid_shape shape
  then ret (mkTensor OpZeros (map Some shape))
  else raise TensorFlowError.

(** [tf.concat(values, axis)]: fails when the static shapes do not fit. *)
Definition tf_concat (values : list Tensor) (axis : Z) : M Tensor :=
  match concat_shape (map get_shape values) axis with
  | Some s => ret (mkTensor (OpConcat values axis) s)
  | None => raise TensorFlowError
  end.

(** An activation function is any callable on tensors. *)
Definition Activation : Type := Tensor -> M Tensor.

Definition tf_nn_relu : Activation :=
  fun features => ret (mkTensor (OpRelu features) (get_shape features)).
Definition tf_tanh : Activation :=
  fun x => ret (mkTensor (OpTanh x) (get_shape x)).

(** [tf.layers.dense(inputs, units, activation=None, name=None)]: an affine
    map of the last axis onto [units] features, then the activation when
    there is one.  The layer wants an input of rank at least 2 whose last
    dimension [w] is known, and a unit count that makes [w; units] the
    shape of a tensor, its kernel. *)
Definition tf_layers_dense (inputs : Tensor) (units : Z)
           (activation : option Activation) (name : option string)
  : M Tensor :=
  let s := get_shape inputs in
  if Nat.ltb (length s) 2
  then raise TensorFlowError
  else
    match last s None with
    | None => raise TensorFlowError
    | Some w =>
        if valid_shape [w; units]
        then
          let outputs :=
            mkTensor (OpDense inputs units name)
                     (removelast s ++ [Some units]) in
          match activation with
          | None => ret outputs
          | Some f => f outputs
          end
        else raise TensorFlowError
    end.

(** ** Collaborators of the repository that lie outside the two modules *)

(** An encoder: only its [output] tensor is read. *)
Record Stateful : Type := { output : Tensor }.

(** Modelled from the spec: [neuralmonkey.nn.utils.dropout], which is not
    among the sources.  Dropout zeroes random elements of a tensor during
    training only; it is gated by the training-mode flag and leaves the
    shape alone. *)
Definition dropout (variable : Tensor) (keep_prob : float)
           (train_mode : Tensor) : Tensor :=
  mkTensor (OpDropout variable keep_prob train_mode) (get_shape variable).

(** Modelled from the spec: [neuralmonkey.nn.projection.maxout], which is
    not among the sources.  The element-wise maximum over grouped affine
    projections, producing a layer of the configured width; being built on
    an affine projection, it asks of its input and of its width what a
    dense layer asks. *)
Definition maxout (inputs : Tensor) (size : Z) : M Tensor :=
  let s := get_shape inputs in
  if Nat.ltb (length s) 2
  then raise TensorFlowError
  else
    match last s None with
    | None => raise TensorFlowError
    | Some w =>
        if valid_shape [w; size]
        then ret (mkTensor (OpMaxout inputs size)
                           (removelast s ++ [Some size]))
        else raise TensorFlowError
    end.

(** Modelled from the spec: [neuralmonkey.nn.projection.multilayer_projection],
    which is not among the sources.  A stack of dense layers, one per entry
    of [layer_sizes], with a shared activation and dropout applied at each
    layer, gated by the training-mode flag.  The scope only names variables. *)
Fixpoint multilayer_projection (input_ : Tensor) (layer_sizes : list Z)
         (activation : Activation) (dropout_keep_prob : float)
         (train_mode : Tensor) (scope : string) : M Tensor :=
  match layer_sizes with
  | [] => ret input_
  | size :: rest =>
      h <- tf_layers_dense input_ size (Some activation) None ;;
      multilayer_projection (dropout h dropout_keep_prob train_mode) rest
                            activation dropout_keep_prob train_mode scope
  end.

(** Python's ["{}".format(v)] for an [int] or [None]. *)
Definition format_dim (d : Dim) : string :=
  match d with
  | Some v => NilZero.string_of_int (Z.to_int v)
  | None => "None"
  end.

(** ["The inferred rnn_size of this encoder projection will be {}".format(d)] *)
Definition inferred_size_message (d : Dim) : string :=
  String.append "The inferred rnn_size of this encoder projection will be "
                (format_dim d).

(** ** encoder_projection.py *)

Module EncoderProjection.

(** The API the three projections conform to: the training-mode flag, the
    optional size, the optional list of encoders. *)
Definition EncoderProjection : Type :=
  Tensor -> option Z -> option (list Stateful) -> M Tensor.

Definition empty_initial_state : EncoderProjection :=
  fun train_mode rnn_size encoders =>
    match rnn_size with
    | None =>
        raise (ValueError
          "You must supply rnn_size for this type of encoder projection")
    | Some rnn_size => tf_zeros [rnn_size]
    end.

(** [encoders is None or not encoders] *)
Definition no_encoders (encoders : option (list Stateful)) : bool :=
  match encoders with
  | None => true
  | Some [] => true
  | Some (_ :: _) => false
  end.

(** The list behind an [Optional] one that passed the guard. *)
Definition the_encoders (encoders : option (list Stateful)) : list Stateful :=
  match encoders with
  | Some encs => encs
  | None => []
  end.

Definition linear_encoder_projection (dropout_keep_prob : float)
  : EncoderProjection :=
  fun train_mode rnn_size encoders =>
    match rnn_size with
    | None =>
        raise (ValueError
          "You must supply rnn_size for this type of encoder projection")
    | Some rnn_size =>
        if no_encoders encoders
        then raise (ValueError
          "There must be at least one encoder for this type of encoder projection")
        else
          encoded_concat <- tf_concat (map output (the_encoders encoders)) 1 ;;
          let encoded_concat :=
            dropout encoded_concat dropout_keep_prob train_mode in
          tf_layers_dense encoded_concat rnn_size None
                          (Some "encoders_projection")
    end.

(** [sum(e.output.get_shape()[1].value for e in encoders)]: the generator is
    consumed left to right, starting from 0; adding [None] is a type error. *)
Fixpoint sum_feature_widths (start : Z) (encoders : list Stateful) : M Z :=
  match encoders with
  | [] => ret start
  | e :: rest =>
      d <- shape_getitem (get_shape (output e)) 1 ;;
      match d with
      | Some v => sum_feature_widths (start + v) rest
      | None =>
          raise (TypeError
            "unsupported operand type(s) for +: 'int' and 'NoneType'")
      end
  end.

Definition concat_encoder_projection : EncoderProjection :=
  fun train_mode rnn_size encoders =>
    if no_encoders encoders
    then raise (ValueError
      "There must be at least one encoder for this type of encoder projection")
    else
      let encoders := the_encoders encoders in
      match rnn_size with
      | Some rnn_size =>
          total <- sum_feature_widths 0 encoders ;;
          if rnn_size =? total then ret tt else raise AssertionError
      | None => ret tt
      end ;;;
      encoded_concat <- tf_concat (map output encoders) 1 ;;
      d <- shape_getitem (get_shape encoded_concat) 1 ;;
      log (inferred_size_message d) ;;;
      ret encoded_concat.

End EncoderProjection.

(** ** output_projection.py *)

Module OutputProjection.

(** (previous state, previous output, context tensors, training mode) to
    the output tensor. *)
Definition OutputProjection : Type :=
  Tensor -> Tensor -> list Tensor -> Tensor -> M Tensor.

(** An omitted keyword argument takes its default. *)
Definition default {A} (d : A) (given : option A) : A :=
  match given with
  | Some a => a
  | None => d
  end.

Definition _legacy_linear (output_size : Z) : OutputProjection * Z :=
  let _projection : OutputProjection :=
    fun prev_state prev_output ctx_tensors train_mode =>
      state_with_ctx <- tf_concat ([prev_state] ++ ctx_tensors) 1 ;;
      tf_layers_dense state_with_ctx output_size None
                      (Some "AttnOutputProjection") in
  (_projection, output_size).

Definition _legacy_relu (output_size : Z) : OutputProjection * Z :=
  let _projection : OutputProjection :=
    fun prev_state prev_output ctx_tensors train_mode =>
      state_with_ctx <- tf_concat ([prev_state] ++ ctx_tensors) 1 ;;
      tf_layers_dense state_with_ctx output_size (Some tf_nn_relu)
                      (Some "AttnOutputProjection") in
  (_projection, output_size).

(** [activation_fn] defaults to [tf.tanh]. *)
Definition nonlinear_output (output_size : Z)
           (activation_fn : option Activation) : OutputProjection * Z :=
  let activation_fn := default tf_tanh activation_fn in
  let _projection : OutputProjection :=
    fun prev_state prev_output ctx_tensors train_mode =>
      state_out_ctx <-
        tf_concat ([prev_state; prev_output] ++ ctx_tensors) 1 ;;
      tf_layers_dense state_out_ctx output_size (Some activation_fn) None in
  (_projection, output_size).

Definition maxout_output (maxout_size : Z) : OutputProjection * Z :=
  let _projection : OutputProjection :=
    fun prev_state prev_output ctx_tensors _ =>
      state_out_ctx <-
        tf_concat ([prev_state; prev_output] ++ ctx_tensors) 1 ;;
      maxout state_out_ctx maxout_size in
  (_projection, maxout_size).

(** [activation] defaults to [tf.tanh], [dropout_keep_prob] to 1.0.  The
    returned pair is built last, so [layer_sizes[-1]] is evaluated when the
    factory is called. *)
Definition mlp_output (layer_sizes : list Z) (activation : option Activation)
           (dropout_keep_prob : option float) : M (OutputProjection * Z) :=
  let activation := default tf_tanh activation in
  let dropout_keep_prob := default 1%float dropout_keep_prob in
  let _projection : OutputProjection :=
    fun prev_state prev_output ctx_tensors train_mode =>
      mlp_input <- tf_concat ([prev_state; prev_output] ++ ctx_tensors) 1 ;;
      multilayer_projection mlp_input layer_sizes activation
                            dropout_keep_prob train_mode "deep_output_mlp" in
  width <- list_getitem layer_sizes (-1) ;;
  ret (_projection, width).

End OutputProjection.

(** ** Sample tensors *)

Definition placeholder (name : string) (shape : TensorShape) : Tensor :=
  mkTensor (OpPlaceholder name) shape.

Definition train_mode0 : Tensor := placeholder "train_mode" [].
Definition enc_a : Stateful := {| output := placeholder "enc_a" [None; Some 3] |}.
Definition enc_b : Stateful := {| output := placeholder "enc_b" [Some 8; Some 5] |}.
Definition enc_unknown : Stateful :=
  {| output := placeholder "enc_unknown" [None; None] |}.
Definition enc_other_batch : Stateful :=
  {| output := placeholder "enc_other_batch" [Some 16; Some 5] |}.
Definition enc_vector : Stateful :=
  {| output := placeholder "enc_vector" [Some 5] |}.
Definition state0 : Tensor := placeholder "prev_state" [None; Some 4].
Definition output0 : Tensor := placeholder "prev_output" [None; Some 2].
Definition ctx0 : Tensor := placeholder "ctx" [Some 8; Some 6].

(** ** Vocabulary of the statements *)

Definition is_2d (t : Tensor) : Prop := rank t = 2%nat.
Definition feature_width (t : Tensor) : Dim := nth 1 (get_shape t) None.

(** The first known dimension of a list, if any. *)
Fixpoint first_known (ds : list Dim) : Dim :=
  match ds with
  | [] => None
  | Some x :: _ => Some x
  | None :: rest => first_known rest
  end.

(** Every known dimension of the list is the same number. *)
Definition dims_agree (ds : list Dim) : bool :=
  forallb (fun d => match d, first_known ds with
                    | Some x, Some y => x =? y
                    | _, _ => true
                    end) ds.

(** Pairwise reading of [dims_agree]. *)
Definition agree (ds : list Dim) : Prop :=
  forall x y, In (Some x) ds -> In (Some y) ds -> x = y.

Definition sum_dims (ds : list Dim) : Dim := fold_right add_dim (Some 0) ds.


Definition width_total (ts : list Tensor) : Dim :=
  sum_dims (map feature_width ts).

(** [ws] lists the (known) feature widths of [ts]. *)
Definition widths_are (ts : list Tensor) (ws : list Z) : Prop :=
  Forall2 (fun t w => feature_width t = Some w) ts ws.

(** An activation that returns a tensor of the shape it was given, as
    [tf.tanh] and [tf.nn.relu] do. *)
Definition shape_preserving (f : Activation) : Prop :=
  forall x t, returns (f x) t -> get_shape t = get_shape x.

(** The last dimension of a tensor: the width a dense layer writes. *)
Definition last_dim (t : Tensor) : Dim := last (get_shape t) None.

(** What remains of [concat_encoder_projection] once its guards are passed. *)
Definition concat_and_log (encoders : list Stateful) : M Tensor :=
  encoded_concat <- tf_concat (map output encoders) 1 ;;
  d <- shape_getitem (get_shape encoded_concat) 1 ;;
  log (inferred_size_message d) ;;;
  ret encoded_concat.

(** ** Lemmas on the monad *)

Lemma bind_ret_l {A B} (a : A) (k : A -> M B) : bind (ret a) k = k a.
Proof. unfold bind, ret. destruct (k a) as [r l]. reflexivity. Qed.

Lemma bind_raise {A B} (e : Exn) (k : A -> M B) : bind (raise e) k = raise e.
Proof. reflexivity. Qed.

Lemma raises_raise {A} (e : Exn) : raises (@raise A e).
Proof. exists e. reflexivity. Qed.

Lemma not_raises_ret {A} (a : A) : ~ raises (ret a).
Proof. intros [e He]. discriminate He. Qed.

Lemma raises_not_returns {A} (m : M A) (a : A) : raises m -> ~ returns m a.
Proof. intros [e He] Hr. unfold returns in Hr. congruence. Qed.

Lemma outcome_bind {A B} (m : M A) (k : A -> M B) :
  outcome (bind m k) =
  match outcome m with
  | inl e => inl e
  | inr a => outcome (k a)
  end.
Proof.
  destruct m as [[e | a] l]; simpl; [reflexivity |].
  destruct (k a) as [r l']. reflexivity.
Qed.




(** ** Lemmas on shape inference *)

Lemma valid_shape_1 (n : Z) :
  valid_shape [n] = (0 <=? n) && (n <? 2 ^ 63).
Proof.
  unfold valid_shape, num_elements, max_elements. simpl.
  now rewrite Z.mul_1_r, andb_true_r.
Qed.


Lemma add_dim_assoc (a b c : Dim) :
  add_dim (add_dim a b) c = add_dim a (add_dim b c).
Proof.
  destruct a, b, c; simpl; try reflexivity. now rewrite Z.add_assoc.
Qed.

Lemma add_dim_0_r (a : Dim) : add_dim a (Some 0) = a.
Proof. destruct a; simpl; [now rewrite Z.add_0_r | reflexivity]. Qed.



Lemma first_known_in (ds : list Dim) (x : Z) :
  first_known ds = Some x -> In (Some x) ds.
Proof.
  induction ds as [| [y |] ds IH]; simpl; intros H.
  - discriminate.
  - left. exact H.
  - right. auto.
Qed.

Lemma first_known_none (ds : list Dim) (x : Z) :
  first_known ds = None -> ~ In (Some x) ds.
Proof.
  induction ds as [| [y |] ds IH]; simpl; intros H Hin.
  - exact Hin.
  - discriminate H.
  - destruct Hin as [Hin | Hin]; [discriminate Hin | now apply IH].
Qed.


Lemma agree_first_known (ds : list Dim) (x : Z) :
  agree ds -> In (Some x) ds -> first_known ds = Some x.
Proof.
  intros Ha Hin. destruct (first_known ds) as [z |] eqn:Hz.
  - f_equal. apply Ha; [now apply first_known_in | exact Hin].
  - exfalso. exact (first_known_none ds x Hz Hin).
Qed.

Lemma agree_dims_agree (ds : list Dim) : agree ds -> dims_agree ds = true.
Proof.
  intros Ha. unfold dims_agree. apply forallb_forall. intros [x |] Hin.
  - rewrite (agree_first_known ds x Ha Hin). apply Z.eqb_refl.
  - reflexivity.
Qed.






Lemma widths_known_are (ts : list Tensor) :
  Forall (fun t => feature_width t <> None) ts -> exists ws, widths_are ts ws.
Proof.
  induction 1 as [| t ts Ht _ [ws IH]].
  - exists []. constructor.
  - destruct (feature_width t) as [w |] eqn:Hw; [| contradiction].
    exists (w :: ws). constructor; assumption.
Qed.

(** ** Lemmas on the TensorFlow operations *)



Lemma shape_getitem_1 (s : TensorShape) :
  (2 <= length s)%nat -> shape_getitem s 1 = ret (nth 1 s None).
Proof.
  intros H. unfold shape_getitem. cbv zeta.
  change (1 <? 0) with false. cbv iota.
  replace (1 <? Z.of_nat (length s)) with true
    by (symmetry; apply Z.ltb_lt; lia).
  reflexivity.
Qed.




(** *** Ranks *)

Lemma merge_shapes_length (s1 : TensorShape) :
  forall s2 s, merge_shapes s1 s2 = Some s -> length s = length s1.
Proof.
  induction s1 as [| d1 r1 IH]; intros [| d2 r2] s; simpl;
    try discriminate.
  - intros H. now injection H as <-.
  - destruct (merge_dim d1 d2); [| discriminate].
    destruct (merge_shapes r1 r2) as [r |] eqn:Hr; [| discriminate].
    intros H. injection H as <-. simpl. f_equal. now apply (IH r2).
Qed.

Lemma concat_shape2_length (axis : nat) :
  forall s1 s2 s, concat_shape2 axis s1 s2 = Some s -> length s = length s1.
Proof.
  induction axis as [| k IH]; intros [| d1 r1] [| d2 r2] s; simpl;
    try discriminate.
  - destruct (merge_shapes r1 r2) as [r |] eqn:Hr; [| discriminate].
    simpl. intros H. injection H as <-. simpl. f_equal.
    now apply (merge_shapes_length r1 r2).
  - destruct (merge_dim d1 d2); [| discriminate].
    destruct (concat_shape2 k r1 r2) as [r |] eqn:Hr; [| discriminate].
    intros H. injection H as <-. simpl. f_equal. now apply (IH r1 r2).
Qed.

Lemma concat_shape_from_length (axis : nat) (rest : list TensorShape) :
  forall acc s,
    concat_shape_from axis acc rest = Some s -> length s = length acc.
Proof.
  induction rest as [| s0 rest IH]; intros acc s; simpl.
  - intros H. now injection H as <-.
  - destruct (concat_shape2 axis acc s0) as [acc' |] eqn:Hacc;
      [| discriminate].
    intros H. apply IH in H. rewrite H.
    now apply (concat_shape2_length axis acc s0).
Qed.

(** A concatenation has the rank of its first operand. *)
Lemma tf_concat_rank (ts : list Tensor) (axis : Z) (t : Tensor) :
  returns (tf_concat ts axis) t ->
  exists t0 rest, ts = t0 :: rest /\ rank t = rank t0.
Proof.
  unfold returns, tf_concat.
  destruct (concat_shape (map get_shape ts) axis) as [s |] eqn:Hs;
    [| discriminate].
  intros H. injection H as <-.
  destruct ts as [| t0 rest]; [discriminate Hs |].
  exists t0, rest. split; [reflexivity |].
  destruct rest as [| t1 rest].
  - simpl in Hs. now injection Hs as <-.
  - unfold concat_shape in Hs. simpl map in Hs. cbv beta iota zeta in Hs.
    match type of Hs with
    | (if ?c then _ else _) = _ => destruct c; [| discriminate]
    end.
    apply concat_shape_from_length in Hs. exact Hs.
Qed.

Lemma replace_last_length {A} (l : list A) (x : A) :
  l <> [] -> length (removelast l ++ [x]) = length l.
Proof.
  induction l as [| a l IH]; intros Hne; [contradiction |].
  destruct l as [| b l]; [reflexivity |].
  change (removelast (a :: b :: l)) with (a :: removelast (b :: l)).
  simpl length. f_equal. apply IH. discriminate.
Qed.

(** A dense layer without activation keeps the rank of its input. *)
Lemma tf_layers_dense_rank (inputs : Tensor) (units : Z)
      (name : option string) (t : Tensor) :
  returns (tf_layers_dense inputs units None name) t -> rank t = rank inputs.
Proof.
  unfold returns, tf_layers_dense. cbv zeta.
  destruct (Nat.ltb (length (get_shape inputs)) 2) eqn:Hlt; [discriminate |].
  destruct (last (get_shape inputs) None) as [w |]; [| discriminate].
  destruct (valid_shape [w; units]); [| discriminate].
  intros H. injection H as <-. unfold rank.
  apply Nat.ltb_ge in Hlt.
  change (get_shape (mkTensor (OpDense inputs units name)
            (removelast (get_shape inputs) ++ [Some units])))
    with (removelast (get_shape inputs) ++ [Some units]).
  apply replace_last_length.
  destruct (get_shape inputs); [simpl in Hlt; lia | discriminate].
Qed.

(** *** Indexing and concatenation of known widths *)

Lemma nth_error_last {A} (l : list A) (d : A) :
  l <> [] -> nth_error l (length l - 1) = Some (last l d).
Proof.
  induction l as [| a l IH]; intros Hne; [contradiction |].
  destruct l as [| b l]; [reflexivity |].
  change (last (a :: b :: l) d) with (last (b :: l) d).
  rewrite <- IH by discriminate.
  replace (length (a :: b :: l) - 1)%nat with (S (length (b :: l) - 1))
    by (simpl; lia).
  reflexivity.
Qed.

(** [l[-1]] is the last element of a nonempty list. *)
Lemma list_getitem_last {A} (l : list A) (d : A) :
  l <> [] -> list_getitem l (-1) = ret (last l d).
Proof.
  intros Hne. unfold list_getitem. cbv zeta.
  change (-1 <? 0) with true. cbv iota.
  assert (Hlen : (0 < length l)%nat)
    by (destruct l; [contradiction | simpl; lia]).
  replace ((0 <=? -1 + Z.of_nat (length l)) &&
           (-1 + Z.of_nat (length l) <? Z.of_nat (length l))) with true
    by (symmetry; apply andb_true_iff; split;
        [apply Z.leb_le | apply Z.ltb_lt]; lia).
  replace (Z.to_nat (-1 + Z.of_nat (length l))) with (length l - 1)%nat
    by lia.
  now rewrite (nth_error_last l d Hne).
Qed.


(** ** The functions at sample inputs *)

Example empty_initial_state_3 :
  EncoderProjection.empty_initial_state train_mode0 (Some 3) None =
    ret (mkTensor OpZeros [Some 3]) /\
  constant_value (mkTensor OpZeros [Some 3]) =
    Some [0%float; 0%float; 0%float].
Proof. split; reflexivity. Qed.

Example concat_declared_mismatch :
  EncoderProjection.concat_encoder_projection
    train_mode0 (Some 7) (Some [enc_a; enc_b]) = raise AssertionError.
Proof. reflexivity. Qed.

Example concat_declared_unknown_width :
  EncoderProjection.concat_encoder_projection
    train_mode0 (Some 7) (Some [enc_a; enc_unknown]) =
  raise (TypeError "unsupported operand type(s) for +: 'int' and 'NoneType'").
Proof. reflexivity. Qed.

Example concat_undeclared_unknown_width :
  EncoderProjection.concat_encoder_projection
    train_mode0 None (Some [enc_a; enc_unknown]) =
  (inr (mkTensor (OpConcat [output enc_a; output enc_unknown] 1)
                 [None; None]),
   ["The inferred rnn_size of this encoder projection will be None"]).
Proof. reflexivity. Qed.

Example concat_batch_mismatch :
  EncoderProjection.concat_encoder_projection
    train_mode0 None (Some [enc_b; enc_other_batch]) =
  raise TensorFlowError.
Proof. reflexivity. Qed.

Example concat_single_vector :
  EncoderProjection.concat_encoder_projection
    train_mode0 None (Some [enc_vector]) =
  raise (IndexError "list index out of range").
Proof. reflexivity. Qed.

Example linear_single_vector :
  EncoderProjection.linear_encoder_projection
    0.5%float train_mode0 (Some 7) (Some [enc_vector]) =
  raise TensorFlowError.
Proof. reflexivity. Qed.

Example linear_negative_size :
  EncoderProjection.linear_encoder_projection
    0.5%float train_mode0 (Some (-1)) (Some [enc_a; enc_b]) =
  raise TensorFlowError.
Proof. reflexivity. Qed.

Example empty_initial_state_sizes :
  EncoderProjection.empty_initial_state train_mode0 (Some (-1)) None =
    raise TensorFlowError /\
  EncoderProjection.empty_initial_state train_mode0 (Some (2 ^ 63)) None =
    raise TensorFlowError /\
  EncoderProjection.empty_initial_state train_mode0 (Some 0) None =
    ret (mkTensor OpZeros [Some 0]).
Proof. repeat split. Qed.

Example linear_unknown_width :
  EncoderProjection.linear_encoder_projection
    0.5%float train_mode0 (Some 7) (Some [enc_a; enc_unknown]) =
  raise TensorFlowError.
Proof. reflexivity. Qed.

Example linear_no_encoders :
  EncoderProjection.linear_encoder_projection
    0.5%float train_mode0 (Some 7) None =
  raise (ValueError
    "There must be at least one encoder for this type of encoder projection").
Proof. reflexivity. Qed.

Example mlp_output_two_layers :
  (p <- OutputProjection.mlp_output [3; 4] None None ;;
   t <- fst p state0 output0 [ctx0] train_mode0 ;;
   ret (snd p, get_shape t)) = ret (4, [Some 8; Some 4]).
Proof. reflexivity. Qed.

(** ** Properties of encoder_projection.py *)

Section EncoderProjectionProperties.

Import EncoderProjection.

Variable train_mode : Tensor.


(** C1 (as the code has it): for a positive [rnn_size] below 2^63 (and for
    0), [empty_initial_state] returns the zero-filled vector of that
    length, whatever the encoders and the training mode are; it raises when
    the size is omitted, and otherwise exactly when [tf.zeros] refuses the
    size: a negative one, or one of 2^63 or more. *)
Theorem empty_initial_state_zero_vector :
  forall (encoders : option (list Stateful)) (rnn_size : option Z),
    let call := empty_initial_state train_mode rnn_size encoders in
    (raises call <->
     rnn_size = None \/
     exists n, rnn_size = Some n /\ (n < 0 \/ 2 ^ 63 <= n)) /\
    (rnn_size = None ->
     call = raise (ValueError
       "You must supply rnn_size for this type of encoder projection")) /\
    (forall n, rnn_size = Some n -> 0 <= n < 2 ^ 63 ->
       call = ret (mkTensor OpZeros [Some n]) /\
       exists elements,
         constant_value (mkTensor OpZeros [Some n]) = Some elements /\
         Z.of_nat (length elements) = n /\
         Forall (fun x => x = 0%float) elements).
Proof.
  intros encoders rnn_size call. subst call.
  split; [| split].
  - destruct rnn_size as [n |]; simpl.
    + unfold tf_zeros. rewrite valid_shape_1.
      destruct ((0 <=? n) && (n <? 2 ^ 63)) eqn:Hv.
      * apply andb_true_iff in Hv. destruct Hv as [H0 H1].
        apply Z.leb_le in H0. apply Z.ltb_lt in H1.
        split; [intros H; now apply not_raises_ret in H |].
        intros [H | (m & Hm & Hbad)]; [discriminate H |].
        injection Hm as <-. lia.
      * split; [| intros _; apply raises_raise].
        intros _. right. exists n. split; [reflexivity |].
        apply andb_false_iff in Hv. destruct Hv as [Hv | Hv].
        -- apply Z.leb_gt in Hv. lia.
        -- apply Z.ltb_ge in Hv. lia.
    + split; [now left | intros _; apply raises_raise].
  - now intros ->.
  - intros n -> Hn. simpl. unfold tf_zeros. rewrite valid_shape_1.
    replace ((0 <=? n) && (n <? 2 ^ 63)) with true
      by (symmetry; apply andb_true_iff; split;
          [apply Z.leb_le | apply Z.ltb_lt]; lia).
    split; [reflexivity |].
    exists (repeat 0%float (Z.to_nat n)). repeat split.
    + rewrite repeat_length. lia.
    + apply Forall_forall. intros x Hx. now apply repeat_spec in Hx.
Qed.








(** C9 (as the code has it): when they do not raise, the linear projection
    and the concatenation, given encoders whose outputs are 2-D, return a
    2-D tensor, whereas the zero initialisation returns the 1-D tensor of
    shape [rnn_size]. *)
Theorem encoder_projection_ranks :
  forall (dropout_keep_prob : float) (rnn_size : option Z)
         (encoders : option (list Stateful)) (t : Tensor),
    (forall encs, encoders = Some encs -> Forall is_2d (map output encs)) ->
    (returns (linear_encoder_projection dropout_keep_prob train_mode
                                        rnn_size encoders) t ->
     is_2d t) /\
    (returns (concat_encoder_projection train_mode rnn_size encoders) t ->
     is_2d t) /\
    (returns (empty_initial_state train_mode rnn_size encoders) t ->
     rank t = 1%nat /\ exists n, rnn_size = Some n /\ get_shape t = [Some n]).
Proof.
  intros keep rnn_size encoders t H2d.
  assert (Hconcat : forall encs c,
            encoders = Some encs ->
            returns (tf_concat (map output encs) 1) c -> is_2d c).
  { intros encs c He Hc. apply tf_concat_rank in Hc.
    destruct Hc as (t0 & rest & Hts & Hrank).
    specialize (H2d encs He). rewrite Hts in H2d.
    inversion H2d as [| ? ? Ht0 _]; subst.
    unfold is_2d. now rewrite Hrank. }
  split; [| split].
  - unfold returns, linear_encoder_projection.
    destruct rnn_size as [n |]; [| discriminate].
    destruct encoders as [[| e es] |]; try discriminate.
    cbv beta iota delta [no_encoders the_encoders].
    rewrite outcome_bind.
    destruct (outcome (tf_concat (map output (e :: es)) 1)) as [x | c] eqn:Hc;
      [discriminate |].
    intros Hd. apply tf_layers_dense_rank in Hd.
    unfold is_2d. rewrite Hd.
    exact (Hconcat (e :: es) c eq_refl Hc).
  - unfold returns, concat_encoder_projection.
    destruct encoders as [[| e es] |]; try discriminate.
    cbv beta iota delta [no_encoders the_encoders].
    rewrite outcome_bind.
    destruct (outcome _) as [x | u]; [discriminate |].
    rewrite outcome_bind.
    destruct (outcome (tf_concat (map output (e :: es)) 1)) as [x | c] eqn:Hc;
      [discriminate |].
    rewrite outcome_bind.
    destruct (outcome (shape_getitem (get_shape c) 1)) as [x | d];
      [discriminate |].
    rewrite outcome_bind. simpl.
    intros H. injection H as <-.
    exact (Hconcat (e :: es) c eq_refl Hc).
  - unfold returns, empty_initial_state, tf_zeros.
    destruct rnn_size as [n |]; [| discriminate].
    destruct (valid_shape [n]); [| discriminate].
    intros H. injection H as <-. split; [reflexivity |].
    exists n. split; reflexivity.
Qed.

End EncoderProjectionProperties.

(** ** Properties of output_projection.py *)

Section OutputProjectionProperties.

Import OutputProjection.

Variables prev_state prev_output train_mode : Tensor.
Variable ctx_tensors : list Tensor.



(** C8: for a nonempty [layer_sizes], [mlp_output] returns its projection
    paired with the last element of [layer_sizes]; for an empty one it
    raises when called, returning no projection. *)
Theorem mlp_output_declared_width :
  forall (layer_sizes : list Z) (activation : option Activation)
         (dropout_keep_prob : option float),
    (layer_sizes <> [] ->
     exists projection,
       mlp_output layer_sizes activation dropout_keep_prob =
         ret (projection, last layer_sizes 0) /\
       projection = (fun s o ctx mode =>
         mlp_input <- tf_concat ([s; o] ++ ctx) 1 ;;
         multilayer_projection mlp_input layer_sizes
           (default tf_tanh activation) (default 1%float dropout_keep_prob)
           mode "deep_output_mlp")) /\
    (layer_sizes = [] ->
     mlp_output layer_sizes activation dropout_keep_prob =
       raise (IndexError "list index out of range") /\
     forall p, ~ returns (mlp_output layer_sizes activation
                                     dropout_keep_prob) p).
Proof.
  intros layer_sizes activation keep. split.
  - intros Hne. eexists. split; [| reflexivity].
    unfold mlp_output. rewrite (list_getitem_last layer_sizes 0 Hne).
    now rewrite bind_ret_l.
  - intros ->. split; [reflexivity |].
    intros p. apply raises_not_returns, raises_raise.
Qed.

(** C10: the legacy linear, legacy ReLU and maxout projections do not depend
    on [train_mode], and the two legacy ones do not depend on [prev_output]
    either: calls that differ only there have equal results. *)
Theorem projections_ignore_arguments :
  forall (size : Z) (prev_output' train_mode' : Tensor),
    fst (_legacy_linear size) prev_state prev_output ctx_tensors train_mode =
    fst (_legacy_linear size) prev_state prev_output' ctx_tensors train_mode'
    /\
    fst (_legacy_relu size) prev_state prev_output ctx_tensors train_mode =
    fst (_legacy_relu size) prev_state prev_output' ctx_tensors train_mode'
    /\
    fst (maxout_output size) prev_state prev_output ctx_tensors train_mode =
    fst (maxout_output size) prev_state prev_output ctx_tensors train_mode'.
Proof. intros size prev_output' train_mode'. repeat split. Qed.

End OutputProjectionProperties.

(** ** The statements at sample inputs *)


Lemma empty_initial_state_zero_vector_witness :
  0 <= 3 < 2 ^ 63 /\
  EncoderProjection.empty_initial_state train_mode0 (Some 3) (Some [enc_a])
  = ret (mkTensor OpZeros [Some 3]).
Proof.
  assert (H : 0 <= 3 < 2 ^ 63) by (split; [lia | reflexivity]).
  split; [exact H |].
  exact (proj1 (proj2 (proj2 (empty_initial_state_zero_vector
                         train_mode0 (Some [enc_a]) (Some 3))) 3 eq_refl H)).
Defined.

(** C1 as stated fails: a positive size of 2^63 is refused by [tf.zeros]. *)
Lemma empty_initial_state_rejects_2_63 :
  0 < 2 ^ 63 /\
  raises (EncoderProjection.empty_initial_state
            train_mode0 (Some (2 ^ 63)) (Some [enc_a])).
Proof. split; [reflexivity | exists TensorFlowError; reflexivity]. Qed.







Lemma encoder_projection_ranks_witness :
  (forall encs, Some [enc_a; enc_b] = Some encs ->
                Forall is_2d (map output encs)) /\
  is_2d (mkTensor (OpConcat (map output [enc_a; enc_b]) 1) [Some 8; Some 8]).
Proof.
  assert (H : forall encs, Some [enc_a; enc_b] = Some encs ->
                           Forall is_2d (map output encs))
    by (intros encs E; injection E as <-; repeat constructor).
  split; [exact H |].
  apply (proj1 (proj2 (encoder_projection_ranks
                         train_mode0 0.5%float None (Some [enc_a; enc_b])
                         _ H))).
  reflexivity.
Defined.

(** C9 as stated fails: the zero initialisation returns a tensor that is
    not 2-D. *)
Lemma empty_initial_state_not_2d :
  exists t,
    returns (EncoderProjection.empty_initial_state
               train_mode0 (Some 4) (Some [enc_a])) t /\
    get_shape t = [Some 4] /\ ~ is_2d t.
Proof.
  exists (mkTensor OpZeros [Some 4]). repeat split. discriminate.
Qed.



Lemma mlp_output_declared_width_witness :
  [3; 4] <> [] /\
  exists projection,
    OutputProjection.mlp_output [3; 4] None None = ret (projection, 4).
Proof.
  assert (Hne : [3; 4] <> []) by discriminate.
  split; [exact Hne |].
  destruct (proj1 (mlp_output_declared_width [3; 4] None None) Hne)
    as (projection & Hp & _).
  exists projection. exact Hp.
Defined.

(** ** Further properties: the calls without assumptions on the shapes *)

(** *** The sum of the widths *)

Lemma shape_getitem_1_eq (s : TensorShape) :
  shape_getitem s 1 =
  if (2 <=? length s)%nat
  then ret (nth 1 s None)
  else raise (IndexError "list index out of range").
Proof.
  destruct (Nat.leb_spec 2 (length s)) as [H | H].
  - now apply shape_getitem_1.
  - unfold shape_getitem. cbv zeta.
    change (1 <? 0) with false. cbv iota.
    replace (1 <? Z.of_nat (length s)) with false
      by (symmetry; apply Z.ltb_ge; lia).
    reflexivity.
Qed.

Lemma nth_1_short (s : TensorShape) :
  (length s < 2)%nat -> nth 1 s (@None Z) = None.
Proof. intros H. apply nth_overflow. lia. Qed.

(** Python's [sum] over the widths returns their total when all of them
    are there and known; otherwise it raises, and not an assertion error. *)
Lemma sum_feature_widths_spec (encs : list Stateful) :
  forall start,
    match width_total (map output encs) with
    | Some total =>
        EncoderProjection.sum_feature_widths start encs = ret (start + total)
    | None =>
        exists e, EncoderProjection.sum_feature_widths start encs = raise e /\
                  e <> AssertionError
    end.
Proof.
  induction encs as [| e encs IH]; intros start.
  - simpl. now rewrite Z.add_0_r.
  - change (width_total (map output (e :: encs)))
      with (add_dim (feature_width (output e))
                    (width_total (map output encs))).
    simpl EncoderProjection.sum_feature_widths.
    rewrite shape_getitem_1_eq. unfold feature_width.
    destruct (Nat.leb_spec 2 (length (get_shape (output e)))) as [H | H].
    + rewrite bind_ret_l.
      destruct (nth 1 (get_shape (output e)) None) as [v |].
      * specialize (IH (start + v)).
        destruct (width_total (map output encs)) as [total |]; simpl.
        -- rewrite IH. f_equal. lia.
        -- exact IH.
      * simpl. eexists. split; [reflexivity | discriminate].
    + rewrite (nth_1_short _ H). simpl.
      eexists. split; [reflexivity | discriminate].
Qed.

(** *** Concatenation along axis 1 *)

Lemma concat_shape2_dim1 (s1 s2 s : TensorShape) :
  concat_shape2 1 s1 s2 = Some s ->
  nth 1 s None = add_dim (nth 1 s1 None) (nth 1 s2 None).
Proof.
  destruct s1 as [| d1 [| w1 r1]], s2 as [| d2 [| w2 r2]]; simpl;
    try discriminate;
    try (destruct (merge_dim d1 d2); discriminate).
  destruct (merge_dim d1 d2) as [d |]; [| discriminate].
  destruct (merge_shapes r1 r2) as [r |]; [| discriminate].
  simpl. intros H. now injection H as <-.
Qed.

Lemma concat_shape_from_dim1 (rest : list TensorShape) :
  forall acc s,
    concat_shape_from 1 acc rest = Some s ->
    nth 1 s None =
    add_dim (nth 1 acc None) (sum_dims (map (fun x => nth 1 x None) rest)).
Proof.
  induction rest as [| s1 rest IH]; intros acc s.
  - simpl. intros H. injection H as <-. now rewrite add_dim_0_r.
  - change (concat_shape_from 1 acc (s1 :: rest))
      with (match concat_shape2 1 acc s1 with
            | Some acc' => concat_shape_from 1 acc' rest
            | None => None
            end).
    change (sum_dims (map (fun x => nth 1 x None) (s1 :: rest)))
      with (add_dim (nth 1 s1 None)
                    (sum_dims (map (fun x => nth 1 x None) rest))).
    destruct (concat_shape2 1 acc s1) as [acc' |] eqn:H2; [| discriminate].
    intros H. rewrite (IH acc' s H), (concat_shape2_dim1 acc s1 acc' H2).
    apply add_dim_assoc.
Qed.

(** The dimension 1 of a concatenation along axis 1 is the sum of the
    operands' dimensions 1. *)
Lemma concat_shape_dim1 (shapes : list TensorShape) (s : TensorShape) :
  concat_shape shapes 1 = Some s ->
  nth 1 s None = sum_dims (map (fun x => nth 1 x None) shapes).
Proof.
  destruct shapes as [| s0 [| s1 rest]]; [discriminate | |].
  - intros H. injection H as <-.
    change (sum_dims (map (fun x => nth 1 x None) [s0]))
      with (add_dim (nth 1 s0 None) (Some 0)).
    now rewrite add_dim_0_r.
  - unfold concat_shape. cbv zeta.
    change (1 <? 0) with false. cbv iota.
    destruct (1 <? Z.of_nat (length s0)) eqn:Hlt; [| discriminate].
    simpl andb. change (Z.to_nat 1) with 1%nat. cbv iota.
    intros H. exact (concat_shape_from_dim1 (s1 :: rest) s0 s H).
Qed.

Lemma tf_concat_cases (ts : list Tensor) (axis : Z) :
  (exists s, concat_shape (map get_shape ts) axis = Some s /\
             tf_concat ts axis = ret (mkTensor (OpConcat ts axis) s)) \/
  tf_concat ts axis = raise TensorFlowError.
Proof.
  unfold tf_concat.
  destruct (concat_shape (map get_shape ts) axis) as [s |]; eauto.
Qed.

Lemma tf_concat_axis1 (ts : list Tensor) (c : Tensor) :
  returns (tf_concat ts 1) c ->
  tf_concat ts 1 = ret c /\
  feature_width c = width_total ts /\
  tensor_op c = OpConcat ts 1.
Proof.
  intros Hr. destruct (tf_concat_cases ts 1) as [(s & Hs & Heq) | Heq];
    rewrite Heq in Hr; [| discriminate Hr].
  injection Hr as <-. pose proof (concat_shape_dim1 _ s Hs) as Hw.
  split; [exact Heq |]. split; [| reflexivity].
  unfold feature_width, width_total. simpl get_shape.
  now rewrite Hw, map_map.
Qed.

(** *** concat_encoder_projection, evaluated *)

Section ConcatEvaluated.

Import EncoderProjection.

Variable train_mode : Tensor.

(** After the concatenation, [get_shape()[1]] fails on a rank below 2,
    which a single operand may have. *)
Lemma concat_and_log_eval (encoders : list Stateful) :
  concat_and_log encoders =
  match concat_shape (map get_shape (map output encoders)) 1 with
  | Some s =>
      if (2 <=? length s)%nat
      then (inr (mkTensor (OpConcat (map output encoders) 1) s),
            [inferred_size_message (nth 1 s None)])
      else raise (IndexError "list index out of range")
  | None => raise TensorFlowError
  end.
Proof.
  unfold concat_and_log, tf_concat.
  destruct (concat_shape (map get_shape (map output encoders)) 1)
    as [s |] eqn:Hs; [| reflexivity].
  rewrite bind_ret_l. simpl get_shape.
  rewrite shape_getitem_1_eq.
  destruct (2 <=? length s)%nat; [| reflexivity].
  now rewrite bind_ret_l.
Qed.

Lemma concat_encoder_projection_eval
      (rnn_size : option Z) (e : Stateful) (es : list Stateful) :
  let call := concat_encoder_projection train_mode rnn_size (Some (e :: es)) in
  match rnn_size with
  | None => call = concat_and_log (e :: es)
  | Some n =>
      match width_total (map output (e :: es)) with
      | Some total =>
          call = if n =? total then concat_and_log (e :: es)
                 else raise AssertionError
      | None => exists x, call = raise x /\ x <> AssertionError
      end
  end.
Proof.
  unfold concat_encoder_projection.
  cbv beta iota zeta delta [no_encoders the_encoders].
  fold (concat_and_log (e :: es)).
  destruct rnn_size as [n |]; [| now rewrite bind_ret_l].
  pose proof (sum_feature_widths_spec (e :: es) 0) as Hsum.
  destruct (width_total (map output (e :: es))) as [total |].
  - rewrite Hsum, bind_ret_l, Z.add_0_l.
    destruct (n =? total); [now rewrite bind_ret_l | reflexivity].
  - destruct Hsum as (x & -> & Hx). exists x. split; [reflexivity | exact Hx].
Qed.

Lemma concat_and_log_returns (encoders : list Stateful) (t : Tensor) :
  returns (concat_and_log encoders) t <->
  returns (tf_concat (map output encoders) 1) t /\ (2 <= rank t)%nat.
Proof.
  rewrite concat_and_log_eval. unfold tf_concat, returns.
  destruct (concat_shape (map get_shape (map output encoders)) 1) as [s |];
    [| split; [discriminate | intros [H _]; discriminate H]].
  destruct (Nat.leb_spec 2 (length s)) as [Hlen | Hlen]; split.
  - intros H. injection H as <-. split; [reflexivity | exact Hlen].
  - now intros [H _].
  - discriminate.
  - intros [H Hrank]. injection H as <-. unfold rank in Hrank.
    simpl in Hrank. lia.
Qed.

Lemma concat_and_log_not_assertion (encoders : list Stateful) :
  outcome (concat_and_log encoders) <> inl AssertionError.
Proof.
  rewrite concat_and_log_eval.
  destruct (concat_shape (map get_shape (map output encoders)) 1) as [s |];
    [| discriminate].
  destruct (2 <=? length s)%nat; discriminate.
Qed.

(** X1: [concat_encoder_projection] returns a tensor exactly when there is
    at least one encoder, [tf.concat] accepts the outputs and gives a tensor
    of rank at least 2 (so that its dimension 1 can be read for the log),
    and the declared size, if any, is the sum of the widths; the tensor is
    then the one [tf.concat] built, so the declared size never changes the
    result. *)
Theorem concat_encoder_projection_returns_iff :
  forall (rnn_size : option Z) (encoders : option (list Stateful))
         (t : Tensor),
    returns (concat_encoder_projection train_mode rnn_size encoders) t <->
    exists encs,
      encoders = Some encs /\ encs <> [] /\
      returns (tf_concat (map output encs) 1) t /\
      (2 <= rank t)%nat /\
      (forall n, rnn_size = Some n ->
                 width_total (map output encs) = Some n).
Proof.
  intros rnn_size encoders t. split.
  - intros Hr. destruct encoders as [[| e es] |]; try discriminate Hr.
    exists (e :: es). split; [reflexivity |]. split; [discriminate |].
    pose proof (concat_encoder_projection_eval rnn_size e es) as He.
    cbv zeta in He.
    destruct rnn_size as [n |].
    + destruct (width_total (map output (e :: es))) as [total |].
      * destruct (n =? total) eqn:Hn; rewrite He in Hr; [| discriminate Hr].
        apply Z.eqb_eq in Hn. subst total.
        apply concat_and_log_returns in Hr. destruct Hr as [Hc Hrank].
        split; [exact Hc |]. split; [exact Hrank |].
        intros m Hm. congruence.
      * destruct He as (x & He & _). rewrite He in Hr. discriminate Hr.
    + rewrite He in Hr.
      apply concat_and_log_returns in Hr. destruct Hr as [Hc Hrank].
      split; [exact Hc |]. split; [exact Hrank |]. discriminate.
  - intros (encs & -> & Hne & Hc & Hrank & Hsize).
    destruct encs as [| e es]; [contradiction |].
    pose proof (concat_encoder_projection_eval rnn_size e es) as He.
    cbv zeta in He.
    assert (Hlog : returns (concat_and_log (e :: es)) t)
      by (apply concat_and_log_returns; split; assumption).
    destruct rnn_size as [n |].
    + rewrite (Hsize n eq_refl), Z.eqb_refl in He. now rewrite He.
    + now rewrite He.
Qed.

(** X2: when [concat_encoder_projection] returns, it has logged one line,
    carrying the feature width of the returned tensor; that width is the
    sum of the encoders' widths, and the declared size when one was given.
    When it raises it has logged nothing. *)
Theorem concat_encoder_projection_log :
  forall (rnn_size : option Z) (encoders : option (list Stateful)),
    let call := concat_encoder_projection train_mode rnn_size encoders in
    (forall t, returns call t ->
       logged call = [inferred_size_message (feature_width t)] /\
       feature_width t = width_total (map output (the_encoders encoders)) /\
       (forall n, rnn_size = Some n -> feature_width t = Some n)) /\
    (raises call -> logged call = []).
Proof.
  intros rnn_size encoders call.
  assert (Hlog : forall es,
            (forall t, returns (concat_and_log es) t ->
               logged (concat_and_log es) =
                 [inferred_size_message (feature_width t)] /\
               feature_width t = width_total (map output es)) /\
            (raises (concat_and_log es) -> logged (concat_and_log es) = [])).
  { intros es. rewrite concat_and_log_eval.
    destruct (concat_shape (map get_shape (map output es)) 1)
      as [s |] eqn:Hs;
      [| split; [intros t Ht; discriminate Ht | reflexivity]].
    destruct (2 <=? length s)%nat;
      [| split; [intros t Ht; discriminate Ht | reflexivity]].
    split.
    - intros t Ht. injection Ht as <-.
      pose proof (concat_shape_dim1 _ s Hs) as Hw.
      split; [reflexivity |].
      unfold feature_width, width_total. simpl get_shape.
      now rewrite Hw, map_map.
    - intros [x Hx]. discriminate Hx. }
  subst call.
  destruct encoders as [[| e es] |];
    try (split; [intros t Ht; discriminate Ht | reflexivity]).
  pose proof (concat_encoder_projection_eval rnn_size e es) as He.
  cbv zeta in He. simpl the_encoders.
  destruct (Hlog (e :: es)) as [Hret Hraise].
  destruct rnn_size as [n |].
  - destruct (width_total (map output (e :: es))) as [total |] eqn:Hw.
    + destruct (n =? total) eqn:Hn; rewrite He.
      * apply Z.eqb_eq in Hn. subst total. split; [| exact Hraise].
        intros t Ht. destruct (Hret t Ht) as [Hl Hf].
        repeat split; try assumption. intros m Hm. congruence.
      * split; [intros t Ht; discriminate Ht | reflexivity].
    + destruct He as (x & He & _). rewrite He.
      split; [intros t Ht; discriminate Ht | reflexivity].
  - rewrite He. split; [| exact Hraise].
    intros t Ht. destruct (Hret t Ht) as [Hl Hf].
    repeat split; try assumption. discriminate.
Qed.

(** X3: with a declared size, [concat_encoder_projection] fails its
    assertion exactly when there is at least one encoder, every feature
    width is known, and their sum is not the declared size.  The check comes
    before the concatenation: it does not matter whether the outputs fit
    together. *)
Theorem concat_encoder_projection_assertion_iff :
  forall (rnn_size : Z) (encoders : option (list Stateful)),
    outcome (concat_encoder_projection train_mode (Some rnn_size) encoders)
      = inl AssertionError <->
    exists encs total,
      encoders = Some encs /\ encs <> [] /\
      width_total (map output encs) = Some total /\ total <> rnn_size.
Proof.
  intros n encoders. split.
  - intros Hr. destruct encoders as [[| e es] |]; try discriminate Hr.
    pose proof (concat_encoder_projection_eval (Some n) e es) as He.
    cbv zeta in He.
    destruct (width_total (map output (e :: es))) as [total |] eqn:Hw.
    + exists (e :: es), total.
      split; [reflexivity |]. split; [discriminate |]. split; [exact Hw |].
      intros ->. rewrite Z.eqb_refl in He. rewrite He in Hr.
      exact (concat_and_log_not_assertion (e :: es) Hr).
    + destruct He as (x & He & Hx). rewrite He in Hr.
      injection Hr as ->. contradiction.
  - intros (encs & total & -> & Hne & Hw & Hdiff).
    destruct encs as [| e es]; [contradiction |].
    pose proof (concat_encoder_projection_eval (Some n) e es) as He.
    cbv zeta in He. rewrite Hw in He.
    assert (Hn : (n =? total) = false) by (apply Z.eqb_neq; congruence).
    rewrite Hn in He. now rewrite He.
Qed.

End ConcatEvaluated.

(** *** Dense layers *)

Lemma returns_bind {A B} (m : M A) (k : A -> M B) (b : B) :
  returns (bind m k) b -> exists a, returns m a /\ returns (k a) b.
Proof.
  unfold returns. rewrite outcome_bind.
  destruct (outcome m) as [e | a]; [discriminate | eauto].
Qed.

Lemma tf_tanh_shape_preserving : shape_preserving tf_tanh.
Proof. intros x t H. injection H as <-. reflexivity. Qed.

Lemma tf_nn_relu_shape_preserving : shape_preserving tf_nn_relu.
Proof. intros x t H. injection H as <-. reflexivity. Qed.

Lemma last_dim_replaced (s : TensorShape) (d : Dim) :
  last (removelast s ++ [d]) None = d.
Proof. apply last_last. Qed.

(** A dense layer that returns has written its unit count as the last
    dimension and kept the rank of its input, which is at least 2. *)
Lemma tf_layers_dense_returns (inputs : Tensor) (units : Z)
      (activation : option Activation) (name : option string) (t : Tensor) :
  (forall f, activation = Some f -> shape_preserving f) ->
  returns (tf_layers_dense inputs units activation name) t ->
  get_shape t = removelast (get_shape inputs) ++ [Some units] /\
  last_dim t = Some units /\ rank t = rank inputs /\
  (activation = None ->
   tf_layers_dense inputs units activation name = ret t /\
   tensor_op t = OpDense inputs units name) /\
  (2 <= rank inputs)%nat.
Proof.
  intros Hact. unfold returns, tf_layers_dense. cbv zeta.
  destruct (Nat.ltb (length (get_shape inputs)) 2) eqn:Hlt; [discriminate |].
  apply Nat.ltb_ge in Hlt.
  destruct (last (get_shape inputs) None) as [w |]; [| discriminate].
  destruct (valid_shape [w; units]); [| discriminate].
  assert (Hne : get_shape inputs <> [])
    by (destruct (get_shape inputs); [simpl in Hlt; lia | discriminate]).
  assert (Hshape : forall u,
            get_shape u = removelast (get_shape inputs) ++ [Some units] ->
            last_dim u = Some units /\ rank u = rank inputs).
  { intros u Hu. unfold last_dim, rank. rewrite Hu. split.
    - apply last_dim_replaced.
    - now apply replace_last_length. }
  destruct activation as [f |].
  - intros Hr. apply (Hact f eq_refl) in Hr. simpl in Hr.
    split; [exact Hr |]. destruct (Hshape t Hr) as [Hl Hk].
    split; [exact Hl |]. split; [exact Hk |]. split; [discriminate |].
    exact Hlt.
  - intros Hr. injection Hr as <-.
    destruct (Hshape (mkTensor (OpDense inputs units name)
                (removelast (get_shape inputs) ++ [Some units])) eq_refl)
      as [Hl Hk].
    split; [reflexivity |]. split; [exact Hl |]. split; [exact Hk |].
    split; [intros _; split; reflexivity | exact Hlt].
Qed.

Lemma tf_layers_dense_quiet (inputs : Tensor) (units : Z)
      (name : option string) :
  logged (tf_layers_dense inputs units None name) = [].
Proof.
  unfold tf_layers_dense. cbv zeta.
  destruct (Nat.ltb (length (get_shape inputs)) 2); [reflexivity |].
  destruct (last (get_shape inputs) None) as [w |]; [| reflexivity].
  now destruct (valid_shape [w; units]).
Qed.

(** A dense layer refuses an input of rank below 2. *)
Lemma tf_layers_dense_low_rank (inputs : Tensor) (units : Z)
      (activation : option Activation) (name : option string) :
  (rank inputs < 2)%nat ->
  tf_layers_dense inputs units activation name = raise TensorFlowError.
Proof.
  intros H. unfold tf_layers_dense. cbv zeta.
  replace (Nat.ltb (length (get_shape inputs)) 2) with true
    by (symmetry; apply Nat.ltb_lt; exact H).
  reflexivity.
Qed.

(** ** Further properties of encoder_projection.py *)

Section LinearEvaluated.

Import EncoderProjection.

Variable train_mode : Tensor.

(** X4: the linear projection builds on what the concatenation projection
    (called without a declared size) returns: where that one returns a
    tensor, the linear projection has the outcome of the dense layer on the
    dropped-out tensor; where that one raises, the linear projection raises
    too (not always the same exception: a single output of rank 1 fails in
    the dense layer here, at [get_shape()[1]] there). *)
Theorem linear_projection_through_concat :
  forall (dropout_keep_prob : float) (rnn_size : Z)
         (encoders : option (list Stateful)),
    let linear :=
      linear_encoder_projection dropout_keep_prob train_mode
                                (Some rnn_size) encoders in
    let concat := concat_encoder_projection train_mode None encoders in
    (forall c, returns concat c ->
       outcome linear =
       outcome (tf_layers_dense (dropout c dropout_keep_prob train_mode)
                                rnn_size None (Some "encoders_projection")))
    /\
    (raises concat -> raises linear).
Proof.
  intros keep n encoders linear concat. subst linear concat.
  destruct encoders as [[| e es] |];
    try (split; [intros c Hc; discriminate Hc | intros _; apply raises_raise]).
  pose proof (concat_encoder_projection_eval train_mode None e es) as He.
  cbv zeta in He. rewrite He, concat_and_log_eval.
  unfold linear_encoder_projection.
  cbv beta iota delta [no_encoders the_encoders].
  unfold tf_concat.
  destruct (concat_shape (map get_shape (map output (e :: es))) 1) as [s |];
    [| split; [intros c Hc; discriminate Hc | intros _; apply raises_raise]].
  rewrite bind_ret_l.
  destruct (Nat.leb_spec 2 (length s)) as [Hlen | Hlen]; split.
  - intros c Hc. injection Hc as <-. reflexivity.
  - intros [x Hx]. discriminate Hx.
  - intros c Hc. discriminate Hc.
  - intros _. rewrite tf_layers_dense_low_rank; [apply raises_raise |].
    exact Hlen.
Qed.

(** X5: the function returned by [linear_encoder_projection] never logs;
    whenever it returns, whatever the shapes of the encoder outputs, the
    result is the dense node over the dropped-out concatenation, its last
    dimension is [rnn_size] and its rank that of the concatenation, which
    is at least 2. *)
Theorem linear_encoder_projection_result :
  forall (dropout_keep_prob : float) (rnn_size : option Z)
         (encoders : option (list Stateful)),
    let call :=
      linear_encoder_projection dropout_keep_prob train_mode rnn_size
                                encoders in
    logged call = [] /\
    (forall t, returns call t ->
       exists n c,
         rnn_size = Some n /\
         returns (tf_concat (map output (the_encoders encoders)) 1) c /\
         tensor_op t =
           OpDense (dropout c dropout_keep_prob train_mode) n
                   (Some "encoders_projection") /\
         last_dim t = Some n /\
         rank t = rank c /\ (2 <= rank c)%nat).
Proof.
  intros keep rnn_size encoders call. subst call.
  unfold linear_encoder_projection.
  destruct rnn_size as [n |];
    [| split; [reflexivity | intros t Ht; discriminate Ht]].
  destruct encoders as [[| e es] |];
    try (split; [reflexivity | intros t Ht; discriminate Ht]).
  cbv beta iota delta [no_encoders the_encoders].
  destruct (tf_concat_cases (map output (e :: es)) 1)
    as [(s & Hs & Hc) | Hc]; rewrite Hc;
    [| split; [reflexivity | intros t Ht; discriminate Ht]].
  rewrite bind_ret_l. split; [apply tf_layers_dense_quiet |].
  intros t Ht. exists n, (mkTensor (OpConcat (map output (e :: es)) 1) s).
  apply tf_layers_dense_returns in Ht; [| discriminate].
  destruct Ht as (_ & Hlast & Hrank & Hnone & Hlen).
  destruct (Hnone eq_refl) as [_ Hop].
  repeat split; assumption.
Qed.

(** X6: a single encoder goes through [concat_encoder_projection] exactly
    when its output has rank at least 2; the result then has the static
    shape of that output, and the logged width is its dimension 1.  An
    output of rank below 2 passes [tf.concat] and fails with an
    [IndexError] where its dimension 1 is read. *)
Theorem concat_encoder_projection_single :
  forall (e : Stateful),
    let call := concat_encoder_projection train_mode None (Some [e]) in
    ((2 <= rank (output e))%nat ->
     call = (inr (mkTensor (OpConcat [output e] 1) (get_shape (output e))),
             [inferred_size_message (feature_width (output e))])) /\
    ((rank (output e) < 2)%nat ->
     returns (tf_concat [output e] 1)
             (mkTensor (OpConcat [output e] 1) (get_shape (output e))) /\
     exists msg, call = raise (IndexError msg)).
Proof.
  intros e call. subst call.
  pose proof (concat_encoder_projection_eval train_mode None e []) as He.
  cbv zeta in He. rewrite He, concat_and_log_eval.
  unfold rank.
  change (concat_shape (map get_shape (map output [e])) 1)
    with (Some (get_shape (output e))). cbv iota.
  destruct (Nat.leb_spec 2 (length (get_shape (output e)))) as [H | H];
    split; intros H'; try lia.
  - reflexivity.
  - split; [reflexivity | eexists; reflexivity].
Qed.

End LinearEvaluated.

(** ** Further properties of output_projection.py *)

Section OutputEvaluated.

Import OutputProjection.

(** A concatenation along axis 1 followed by a dense layer. *)
Lemma concat_then_dense (first : Tensor) (others : list Tensor) (size : Z)
      (activation : option Activation) (name : option string) (t : Tensor) :
  (forall f, activation = Some f -> shape_preserving f) ->
  returns (c <- tf_concat (first :: others) 1 ;;
           tf_layers_dense c size activation name) t ->
  last_dim t = Some size /\ rank t = rank first /\ (2 <= rank t)%nat.
Proof.
  intros Hact Hr. apply returns_bind in Hr. destruct Hr as (c & Hc & Ht).
  destruct (tf_concat_rank _ _ _ Hc) as (t0 & rest & Hts & Hrank).
  injection Hts as <- <-.
  destruct (tf_layers_dense_returns _ _ _ _ _ Hact Ht)
    as (_ & Hl & Hk & _ & Hlen).
  split; [exact Hl |]. split; [congruence |]. rewrite Hk. exact Hlen.
Qed.

Variables prev_state prev_output train_mode : Tensor.
Variable ctx_tensors : list Tensor.

(** X7: whenever a legacy or nonlinear projection returns a tensor,
    whatever the shapes of its inputs, the last dimension of that tensor is
    the width its factory declared, and its rank is that of the previous
    state (at least 2); for [nonlinear_output] this holds with every
    activation that keeps the shape of its argument, [tf.tanh] by default. *)
Theorem output_projection_declared_width :
  forall (size : Z) (activation_fn : option Activation) (t : Tensor),
    (forall f, activation_fn = Some f -> shape_preserving f) ->
    let agrees (spec : OutputProjection * Z) :=
      returns (fst spec prev_state prev_output ctx_tensors train_mode) t ->
      last_dim t = Some (snd spec) /\
      rank t = rank prev_state /\ (2 <= rank t)%nat in
    agrees (_legacy_linear size) /\
    agrees (_legacy_relu size) /\
    agrees (nonlinear_output size activation_fn).
Proof.
  intros size activation_fn t Hact agrees. subst agrees. cbv beta.
  split; [| split]; intros Hr.
  - apply (concat_then_dense prev_state ctx_tensors size None
             (Some "AttnOutputProjection")); [discriminate | exact Hr].
  - apply (concat_then_dense prev_state ctx_tensors size (Some tf_nn_relu)
             (Some "AttnOutputProjection")); [| exact Hr].
    intros f Hf. injection Hf as <-. exact tf_nn_relu_shape_preserving.
  - apply (concat_then_dense prev_state (prev_output :: ctx_tensors) size
             (Some (default tf_tanh activation_fn)) None); [| exact Hr].
    intros f Hf. injection Hf as <-.
    destruct activation_fn as [g |]; simpl.
    + now apply Hact.
    + exact tf_tanh_shape_preserving.
Qed.

End OutputEvaluated.

(** ** The further properties at sample inputs *)

Lemma concat_encoder_projection_log_witness :
  logged (EncoderProjection.concat_encoder_projection
            train_mode0 (Some 8) (Some [enc_a; enc_b])) =
    ["The inferred rnn_size of this encoder projection will be 8"] /\
  logged (EncoderProjection.concat_encoder_projection
            train_mode0 (Some 7) (Some [enc_a; enc_b])) = [].
Proof.
  destruct (concat_encoder_projection_log
              train_mode0 (Some 8) (Some [enc_a; enc_b])) as [Hret _].
  destruct (concat_encoder_projection_log
              train_mode0 (Some 7) (Some [enc_a; enc_b])) as [_ Hraise].
  split.
  - exact (proj1 (Hret (mkTensor (OpConcat (map output [enc_a; enc_b]) 1)
                                 [Some 8; Some 8]) eq_refl)).
  - apply Hraise. exists AssertionError. reflexivity.
Defined.

Lemma linear_encoder_projection_result_witness :
  exists t,
    returns (EncoderProjection.linear_encoder_projection
               0.5%float train_mode0 (Some 7) (Some [enc_a; enc_b])) t /\
    last_dim t = Some 7.
Proof.
  eexists. split; [reflexivity |].
  destruct (proj2 (linear_encoder_projection_result
                     train_mode0 0.5%float (Some 7) (Some [enc_a; enc_b]))
                  _ eq_refl) as (n & c & Hn & _ & _ & Hlast & _).
  injection Hn as <-. exact Hlast.
Defined.

Lemma concat_encoder_projection_single_witness :
  (2 <= rank (output enc_b))%nat /\
  EncoderProjection.concat_encoder_projection train_mode0 None (Some [enc_b])
  = (inr (mkTensor (OpConcat [output enc_b] 1) [Some 8; Some 5]),
     ["The inferred rnn_size of this encoder projection will be 5"]).
Proof.
  assert (H : (2 <= rank (output enc_b))%nat) by (vm_compute; lia).
  split; [exact H |].
  exact (proj1 (concat_encoder_projection_single train_mode0 enc_b) H).
Defined.

Lemma output_projection_declared_width_witness :
  (forall f, Some tf_nn_relu = Some f -> shape_preserving f) /\
  last_dim
    (mkTensor
       (OpRelu
          (mkTensor
             (OpDense
                (mkTensor (OpConcat [state0; output0; ctx0] 1)
                          [Some 8; Some 12])
                7 None)
             [Some 8; Some 7]))
       [Some 8; Some 7]) = Some 7.
Proof.
  assert (H : forall f, Some tf_nn_relu = Some f -> shape_preserving f)
    by (intros f E; injection E as <-; exact tf_nn_relu_shape_preserving).
  split; [exact H |].
  exact (proj1 (proj2 (proj2 (output_projection_declared_width
                  state0 output0 train_mode0 [ctx0] 7 (Some tf_nn_relu)
                  _ H)) eq_refl)).
Defined.
